(** * verify_grid_controls.py: a shallow embedding

    The script drives Playwright's synchronous API.  Every library call
    ([sync_playwright().__enter__], [launch], [new_page], [goto], [wait_for],
    [screenshot], [click], [hover], [browser.close], and the context exit)
    is opaque to the script: it either returns or raises.  A run is
    therefore determined by an environment saying, for each call, whether it
    raises and which exception, and what a screenshot of the current page
    looks like.  [page.locator] only builds a query descriptor and [print]
    writes to stdout; both are modelled as non-failing events.

    Python's [try]/[except Exception]/[finally] and the [with] statement are
    written out as combinators of a small state-and-exception monad. *)

From Stdlib Require Import String List ZArith Ascii Bool Lia.
Import ListNotations.
Open Scope string_scope.

(** ** Python exceptions *)

(** The exception classes that matter to the script: Playwright's
    [TimeoutError] (raised by a bounded wait), Playwright's base [Error]
    (navigation or action failure, file write failure), and a
    [BaseException] that is not an [Exception] ([KeyboardInterrupt]). *)
Inductive exn_class :=
| TimeoutError
| PlaywrightError
| KeyboardInterrupt.

(** [isinstance(e, Exception)] *)
Definition is_Exception (c : exn_class) : bool :=
  match c with
  | TimeoutError | PlaywrightError => true
  | KeyboardInterrupt => false
  end.

Record exn := mk_exn { exn_cls : exn_class; exn_msg : string }.

(** ** Library calls *)

(** A timeout keyword argument in milliseconds, [None] when the call
    passes none. *)
Definition timeout_ms := option Z.

Inductive op :=
| OStart                                     (* sync_playwright().__enter__ *)
| OLaunch                                    (* p.chromium.launch() *)
| ONewPage                                   (* browser.new_page() *)
| OGoto (url : string) (t : timeout_ms)      (* page.goto(url) *)
| OWait (sel : string) (state : string) (t : timeout_ms)
                                             (* locator.wait_for(...) *)
| OScreenshot (path : string) (t : timeout_ms)
                                             (* page.screenshot(path=...) *)
| OClick (sel : string) (t : timeout_ms)     (* locator.click() *)
| OHover (sel : string) (t : timeout_ms)     (* locator.hover() *)
| OClose                                     (* browser.close() *)
| OStop.                                     (* sync_playwright().__exit__ *)

Definition tmo_eqb (a b : timeout_ms) : bool :=
  match a, b with
  | Some x, Some y => Z.eqb x y
  | None, None => true
  | _, _ => false
  end.

Definition op_eqb (a b : op) : bool :=
  match a, b with
  | OStart, OStart | OLaunch, OLaunch | ONewPage, ONewPage
  | OClose, OClose | OStop, OStop => true
  | OGoto u t, OGoto u' t' => String.eqb u u' && tmo_eqb t t'
  | OWait s st t, OWait s' st' t' =>
      String.eqb s s' && String.eqb st st' && tmo_eqb t t'
  | OScreenshot p t, OScreenshot p' t' => String.eqb p p' && tmo_eqb t t'
  | OClick s t, OClick s' t' | OHover s t, OHover s' t' =>
      String.eqb s s' && tmo_eqb t t'
  | _, _ => false
  end.

(** PNG bytes. *)
Definition png := list Byte.byte.

(** The application and browser as the script sees them: whether each call
    raises, and the capture of a page given the interactions (navigation,
    click, hover) performed on it so far. *)
Record env := mk_env {
  fails : op -> option exn;
  capture : list op -> png
}.

(** What a run leaves observable: every library call with its outcome,
    locator constructions, printed lines. *)
Inductive event :=
| ECall (o : op) (r : option exn)
| ELocator (sel : string)
| EPrint (line : string).

(** The working directory: file name to contents. *)
Definition fsys := string -> option png.

Definition fs_write (fs : fsys) (path : string) (data : png) : fsys :=
  fun q => if String.eqb q path then Some data else fs q.

Record state := mk_state {
  trace : list event;
  files : fsys;
  page_hist : list op
}.

Inductive result (A : Type) :=
| Ok (a : A)
| Raise (e : exn).
Arguments Ok {A} a.
Arguments Raise {A} e.

Section Run.

Variable E : env.

Definition M (A : Type) := state -> result A * state.

Definition ret {A} (a : A) : M A := fun s => (Ok a, s).

Definition bind {A B} (m : M A) (f : A -> M B) : M B :=
  fun s => match m s with
           | (Ok a, s') => f a s'
           | (Raise e, s') => (Raise e, s')
           end.

Notation "x <- m ;; k" := (bind m (fun x => k))
  (at level 61, m at next level, right associativity).
Notation "m ;; k" := (bind m (fun _ => k))
  (at level 61, right associativity).

(** [raise e] *)
Definition raise {A} (e : exn) : M A := fun s => (Raise e, s).

Definition log (ev : event) (s : state) : state :=
  mk_state (trace s ++ [ev]) (files s) (page_hist s).

(** [print(line)] *)
Definition print (line : string) : M unit :=
  fun s => (Ok tt, log (EPrint line) s).

(** [page.locator(sel)]: a lazy query descriptor, no browser round trip. *)
Definition locator (sel : string) : M string :=
  fun s => (Ok sel, log (ELocator sel) s).

(** The effect of a call that returned: a screenshot writes the capture of
    the current page to its path (overwriting); navigation, click and hover
    change the page. *)
Definition effect (o : op) (s : state) : state :=
  match o with
  | OScreenshot path _ =>
      mk_state (trace s) (fs_write (files s) path (capture E (page_hist s)))
               (page_hist s)
  | OGoto _ _ | OClick _ _ | OHover _ _ =>
      mk_state (trace s) (files s) (page_hist s ++ [o])
  | _ => s
  end.

(** A library call. *)
Definition call (o : op) : M unit :=
  fun s => match fails E o with
           | None => (Ok tt, effect o (log (ECall o None) s))
           | Some e => (Raise e, log (ECall o (Some e)) s)
           end.

(** [try: body except Exception as e: handler(e) finally: fin] *)
Definition try_except_finally (body : M unit) (handler : exn -> M unit)
    (fin : M unit) : M unit :=
  fun s =>
    let '(r, s1) :=
      match body s with
      | (Raise e, s') =>
          if is_Exception (exn_cls e) then handler e s' else (Raise e, s')
      | ok => ok
      end in
    match fin s1 with
    | (Ok _, s2) => (r, s2)
    | (Raise f, s2) => (Raise f, s2)
    end.

(** [with sync_playwright() as p: body]: [__exit__] runs whether or not the
    body raised, returns a falsy value (so the body's exception propagates),
    and an exception it raises replaces the body's. *)
Definition with_playwright (body : M unit) : M unit :=
  fun s =>
    match call OStart s with
    | (Raise e, s1) => (Raise e, s1)
    | (Ok _, s1) =>
        let '(r, s2) := body s1 in
        match call OStop s2 with
        | (Ok _, s3) => (r, s3)
        | (Raise f, s3) => (Raise f, s3)
        end
    end.

(** ** The script *)

Definition dquote : ascii := Ascii.ascii_of_nat 34.

(** The CSS selector ['[data-testid="<id>"]']. *)
Definition testid (id : string) : string :=
  "[data-testid=" ++ String dquote (id ++ String dquote "]").

Definition app_url := "http://localhost:5173".
Definition trigger_sel := testid "grid-selector-trigger".
Definition popover_sel := testid "grid-selector-popover".
Definition cell_sel := testid "grid-cell-2-2".
Definition initial_png := "verification_initial.png".
Definition open_png := "verification_open.png".
Definition error_png := "verification_error.png".

(** The [try] body, lines 9-40. *)
Definition steps : M unit :=
  print "Navigating to app..." ;;
  call (OGoto app_url None) ;;
  print "Waiting for grid controls..." ;;
  grid_trigger <- locator trigger_sel ;;
  call (OWait grid_trigger "visible" (Some 10000%Z)) ;;
  print "Taking initial screenshot..." ;;
  call (OScreenshot initial_png None) ;;
  print "Opening grid selector..." ;;
  call (OClick grid_trigger None) ;;
  popover <- locator popover_sel ;;
  call (OWait popover "visible" (Some 2000%Z)) ;;
  print "Hovering over cell 2x2..." ;;
  cell_2_2 <- locator cell_sel ;;
  call (OHover cell_2_2 None) ;;
  print "Taking open state screenshot..." ;;
  call (OScreenshot open_png None) ;;
  print "Verification script completed successfully.".

(** The [except Exception as e] handler, lines 42-45. *)
Definition on_error (e : exn) : M unit :=
  print ("Error during verification: " ++ exn_msg e) ;;
  call (OScreenshot error_png None) ;;
  raise e.

Definition verify_grid_controls : M unit :=
  with_playwright
    (call OLaunch ;;
     call ONewPage ;;
     try_except_finally steps on_error (call OClose)).

End Run.

(** A run of the script from a working directory [fs0]. *)
Definition run (E : env) (fs0 : fsys) : result unit * state :=
  verify_grid_controls E (mk_state [] fs0 []).

(** Process exit status: an uncaught exception ends the interpreter with a
    non-zero status. *)
Definition exit_status (r : result unit) : nat :=
  match r with Ok _ => 0 | Raise _ => 1 end.

(** ** Observations on a run *)

(** Number of calls of [o] in a trace, whatever their outcome. *)
Fixpoint calls (o : op) (tr : list event) : nat :=
  match tr with
  | [] => 0
  | ECall o' _ :: tr' => (if op_eqb o o' then 1 else 0) + calls o tr'
  | _ :: tr' => calls o tr'
  end.

(** Whether a call of [o] returned normally. *)
Fixpoint succeeded (o : op) (tr : list event) : bool :=
  match tr with
  | [] => false
  | ECall o' None :: tr' => op_eqb o o' || succeeded o tr'
  | _ :: tr' => succeeded o tr'
  end.

(** The exception a call of [o] raised, if one did. *)
Fixpoint raised (o : op) (tr : list event) : option exn :=
  match tr with
  | [] => None
  | ECall o' (Some e) :: tr' => if op_eqb o o' then Some e else raised o tr'
  | _ :: tr' => raised o tr'
  end.

(** Artifacts written to [path]: screenshot calls to [path] that returned. *)
Fixpoint artifacts (path : string) (tr : list event) : nat :=
  match tr with
  | [] => 0
  | ECall (OScreenshot p _) None :: tr' =>
      (if String.eqb p path then 1 else 0) + artifacts path tr'
  | _ :: tr' => artifacts path tr'
  end.

(** Screenshot attempts to [path], whatever their outcome. *)
Fixpoint shot_attempts (path : string) (tr : list event) : nat :=
  match tr with
  | [] => 0
  | ECall (OScreenshot p _) _ :: tr' =>
      (if String.eqb p path then 1 else 0) + shot_attempts path tr'
  | _ :: tr' => shot_attempts path tr'
  end.

Definition success_artifacts (tr : list event) : nat :=
  artifacts initial_png tr + artifacts open_png tr.

Definition error_artifacts (tr : list event) : nat := artifacts error_png tr.

(** Printed lines satisfying [f]. *)
Fixpoint prints (f : string -> bool) (tr : list event) : nat :=
  match tr with
  | [] => 0
  | EPrint l :: tr' => (if f l then 1 else 0) + prints f tr'
  | _ :: tr' => prints f tr'
  end.

Definition completion_msg := "Verification script completed successfully.".
Definition error_prefix := "Error during verification: ".

Definition is_completion (l : string) : bool := String.eqb l completion_msg.
(** [l.startswith(pre)] *)
Fixpoint starts_with (pre l : string) : bool :=
  match pre, l with
  | EmptyString, _ => true
  | String c pre', String c' l' => Ascii.eqb c c' && starts_with pre' l'
  | String _ _, EmptyString => false
  end.

Definition is_error_log (l : string) : bool := starts_with error_prefix l.

Definition all_ok : env := mk_env (fun _ => None) (fun _ => []).

Example all_ok_run :
  let '(r, s) := run all_ok (fun _ => None) in
  exit_status r = 0 /\ success_artifacts (trace s) = 2 /\
  error_artifacts (trace s) = 0 /\ prints is_completion (trace s) = 1.
Proof. vm_compute. auto. Qed.

Definition outcome (E : env) (fs0 : fsys) : result unit := fst (run E fs0).
Definition final (E : env) (fs0 : fsys) : state := snd (run E fs0).

(** The exception leaving a [finally] or [__exit__] that ran after an
    exception [e]: the cleanup's own exception if it raised one, [e]
    otherwise. *)
Definition replaced_by (cleanup : option exn) (e : exn) : exn :=
  match cleanup with Some f => f | None => e end.

(** The calls of the [try] body, as the script issues them. *)
Definition step_ops : list op :=
  [ OGoto app_url None;
    OWait trigger_sel "visible" (Some 10000%Z);
    OScreenshot initial_png None;
    OClick trigger_sel None;
    OWait popover_sel "visible" (Some 2000%Z);
    OHover cell_sel None;
    OScreenshot open_png None ].

Definition no_files : fsys := fun _ => None.

(** ** Proof automation: a run is decided by the outcome of each call *)

(** Reduce the script without spelling out its string constants. *)
Ltac red_run :=
  cbn -[app_url trigger_sel popover_sel cell_sel initial_png open_png
        error_png String.append].

(** Case on the outcome of each call, in the order the script issues them,
    and on the class of each exception the [except] clause inspects. *)
Ltac split_calls :=
  repeat match goal with
  | |- context [fails ?E ?o] =>
      let H := fresh "Hf" in let c := fresh "cls" in let m := fresh "msg" in
      destruct (fails E o) as [[c m]|] eqn:H; red_run
  | |- context [is_Exception ?c] => is_var c; destruct c; red_run
  end.

Ltac clean_hyps :=
  repeat match goal with
  | H : Some _ = Some _ |- _ => injection H as H
  | H : mk_exn _ _ = mk_exn _ _ |- _ => injection H as H
  | H : None = Some _ |- _ => discriminate H
  | H : Some _ = None |- _ => discriminate H
  | H : false = true |- _ => discriminate H
  | H : true = false |- _ => discriminate H
  | H : TimeoutError = PlaywrightError |- _ => discriminate H
  | H : TimeoutError = KeyboardInterrupt |- _ => discriminate H
  | H : PlaywrightError = TimeoutError |- _ => discriminate H
  | H : PlaywrightError = KeyboardInterrupt |- _ => discriminate H
  | H : KeyboardInterrupt = TimeoutError |- _ => discriminate H
  | H : KeyboardInterrupt = PlaywrightError |- _ => discriminate H
  | H : ?a = ?a |- _ => clear H
  | H : False |- _ => destruct H
  | H : _ \/ _ |- _ => destruct H
  | H : ?x = _ |- _ => is_var x; subst x
  | H : _ = ?x |- _ => is_var x; subst x
  end.

(** Abstract the run, split it into its finitely many paths, evaluate the
    statement's hypotheses on each, then its conclusion. *)
Ltac decide_run :=
  repeat match goal with
         | x : exn |- _ =>
             let c := fresh "cls" in let m := fresh "msg" in destruct x as [c m]
         end;
  unfold outcome, final;
  lazymatch goal with |- context [run ?E ?fs] =>
    let R := fresh "R" in let HR := fresh "HR" in
    remember (run E fs) as R eqn:HR; revert HR;
    unfold run, verify_grid_controls, with_playwright, try_except_finally,
      steps, on_error, bind, call, print, locator, raise, ret;
    red_run; split_calls; intros HR; subst R; cbv zeta;
    repeat (let H := fresh "H" in intro H; vm_compute in H);
    clean_hyps; vm_compute
  end.

(** ** C1: the all-steps-succeed run *)

(** An environment in which exactly the listed calls raise. *)
Fixpoint failing (l : list (op * exn)) (o : op) : option exn :=
  match l with
  | [] => None
  | (o', e) :: l' => if op_eqb o o' then Some e else failing l' o
  end.

Definition env_of (l : list (op * exn)) : env :=
  mk_env (failing l) (fun _ => []).

Definition timeout_exn := mk_exn TimeoutError "Timeout exceeded.".
Definition pw_exn (msg : string) := mk_exn PlaywrightError msg.

Definition teardown_fails : env :=
  env_of [(OClose, pw_exn "Target closed")].

(** C1, counterexample: every step of the script succeeds but
    [browser.close()] in the [finally] raises; the run ends with an
    uncaught exception, i.e. a failure status. *)
Lemma C1_teardown_raises :
  let s := trace (final teardown_fails no_files) in
  forallb (fun o => succeeded o s) step_ops = true /\
  success_artifacts s = 2 /\
  exit_status (outcome teardown_fails no_files) = 1.
Proof. vm_compute. auto. Qed.

(** C1 (amended): in every run in which navigation, both visibility waits,
    the click, the hover and both screenshots succeed, exactly one initial
    and one open-state capture are written (two success artifacts), no
    error artifact is written, the completion message is printed once, and
    the status is success exactly when the teardown ([browser.close()] and
    the playwright context exit) does not raise. *)
Theorem C1_success_run (E : env) (fs0 : fsys) :
  let s := trace (final E fs0) in
  succeeded (OGoto app_url None) s = true ->
  succeeded (OWait trigger_sel "visible" (Some 10000%Z)) s = true ->
  succeeded (OScreenshot initial_png None) s = true ->
  succeeded (OClick trigger_sel None) s = true ->
  succeeded (OWait popover_sel "visible" (Some 2000%Z)) s = true ->
  succeeded (OHover cell_sel None) s = true ->
  succeeded (OScreenshot open_png None) s = true ->
  artifacts initial_png s = 1 /\ artifacts open_png s = 1 /\
  success_artifacts s = 2 /\ error_artifacts s = 0 /\
  prints is_completion s = 1 /\
  (exit_status (outcome E fs0) = 0 <->
   succeeded OClose s = true /\ succeeded OStop s = true).
Proof.
  decide_run; repeat split; intros; try discriminate; try reflexivity;
    try solve [intuition discriminate].
Qed.

Lemma C1_success_run_witness :
  let s := trace (final all_ok no_files) in
  (succeeded (OGoto app_url None) s = true /\
   succeeded (OWait trigger_sel "visible" (Some 10000%Z)) s = true /\
   succeeded (OScreenshot initial_png None) s = true /\
   succeeded (OClick trigger_sel None) s = true /\
   succeeded (OWait popover_sel "visible" (Some 2000%Z)) s = true /\
   succeeded (OHover cell_sel None) s = true /\
   succeeded (OScreenshot open_png None) s = true) /\
  success_artifacts s = 2 /\ error_artifacts s = 0.
Proof.
  cbv zeta.
  split; [vm_compute; repeat split; reflexivity |].
  destruct (C1_success_run all_ok no_files) as (_ & _ & H2 & H0 & _);
    try (vm_compute; reflexivity).
  split; [exact H2 | exact H0].
Defined.

(** ** C2 and C3: the timeout paths *)

Definition trigger_timeout_shot_fails : env :=
  env_of [(OWait trigger_sel "visible" (Some 10000%Z), timeout_exn);
          (OScreenshot error_png None, pw_exn "write failed")].

(** C2, counterexample: the trigger wait times out and the diagnostic
    screenshot raises; no error artifact is written. *)
Lemma C2_shot_raises :
  let s := trace (final trigger_timeout_shot_fails no_files) in
  raised (OWait trigger_sel "visible" (Some 10000%Z)) s = Some timeout_exn /\
  error_artifacts s = 0.
Proof. vm_compute. auto. Qed.

(** C2 (amended): in every run in which the trigger's visibility wait times
    out, no success artifact is written, the diagnostic screenshot is
    attempted exactly once, one error artifact is written exactly when that
    screenshot succeeds (none otherwise), and the status is failure. *)
Theorem C2_trigger_timeout (E : env) (fs0 : fsys) (e : exn) :
  let s := trace (final E fs0) in
  raised (OWait trigger_sel "visible" (Some 10000%Z)) s = Some e ->
  exn_cls e = TimeoutError ->
  success_artifacts s = 0 /\ shot_attempts error_png s = 1 /\
  error_artifacts s <= 1 /\
  (error_artifacts s = 1 <-> succeeded (OScreenshot error_png None) s = true) /\
  exit_status (outcome E fs0) = 1.
Proof.
  decide_run; repeat split; intros; auto; lia.
Qed.

Definition trigger_timeout : env :=
  env_of [(OWait trigger_sel "visible" (Some 10000%Z), timeout_exn)].

Lemma C2_trigger_timeout_witness :
  let s := trace (final trigger_timeout no_files) in
  raised (OWait trigger_sel "visible" (Some 10000%Z)) s = Some timeout_exn /\
  success_artifacts s = 0 /\ error_artifacts s = 1.
Proof.
  cbv zeta.
  destruct (C2_trigger_timeout trigger_timeout no_files timeout_exn)
    as (H0 & _ & _ & [_ H1] & _);
    [vm_compute; reflexivity | reflexivity |].
  split; [vm_compute; reflexivity |].
  split; [exact H0 | apply H1; vm_compute; reflexivity].
Defined.

Definition popover_timeout_shot_fails : env :=
  env_of [(OWait popover_sel "visible" (Some 2000%Z), timeout_exn);
          (OScreenshot error_png None, pw_exn "write failed")].

(** C3, counterexample: the trigger is clicked, the popover wait times out
    and the diagnostic screenshot raises; no error artifact is written. *)
Lemma C3_shot_raises :
  let s := trace (final popover_timeout_shot_fails no_files) in
  succeeded (OClick trigger_sel None) s = true /\
  raised (OWait popover_sel "visible" (Some 2000%Z)) s = Some timeout_exn /\
  error_artifacts s = 0.
Proof. vm_compute. auto. Qed.

(** C3 (amended): in every run in which the trigger is clicked and the
    popover's visibility wait times out, exactly one success artifact (the
    initial capture) is written, the diagnostic screenshot is attempted
    exactly once, one error artifact is written exactly when that screenshot
    succeeds (none otherwise), and the status is failure. *)
Theorem C3_popover_timeout (E : env) (fs0 : fsys) (e : exn) :
  let s := trace (final E fs0) in
  succeeded (OClick trigger_sel None) s = true ->
  raised (OWait popover_sel "visible" (Some 2000%Z)) s = Some e ->
  exn_cls e = TimeoutError ->
  artifacts initial_png s = 1 /\ artifacts open_png s = 0 /\
  success_artifacts s = 1 /\ shot_attempts error_png s = 1 /\
  error_artifacts s <= 1 /\
  (error_artifacts s = 1 <-> succeeded (OScreenshot error_png None) s = true) /\
  exit_status (outcome E fs0) = 1.
Proof.
  decide_run; repeat split; intros; auto; lia.
Qed.

Definition popover_timeout : env :=
  env_of [(OWait popover_sel "visible" (Some 2000%Z), timeout_exn)].

Lemma C3_popover_timeout_witness :
  let s := trace (final popover_timeout no_files) in
  succeeded (OClick trigger_sel None) s = true /\
  raised (OWait popover_sel "visible" (Some 2000%Z)) s = Some timeout_exn /\
  success_artifacts s = 1 /\ error_artifacts s = 1.
Proof.
  cbv zeta.
  destruct (C3_popover_timeout popover_timeout no_files timeout_exn)
    as (_ & _ & H0 & _ & _ & [_ H1] & _);
    [vm_compute; reflexivity | vm_compute; reflexivity | reflexivity |].
  split; [vm_compute; reflexivity |].
  split; [vm_compute; reflexivity |].
  split; [exact H0 | apply H1; vm_compute; reflexivity].
Defined.

(** ** C4: releasing the session *)

Definition new_page_fails : env :=
  env_of [(ONewPage, pw_exn "new_page failed")].

(** C4, counterexample: the browser is launched but [browser.new_page()]
    raises; it sits before the [try], so [browser.close()] is never called
    (only the playwright context exit runs). *)
Lemma C4_new_page_raises :
  let s := trace (final new_page_fails no_files) in
  succeeded OLaunch s = true /\ calls OClose s = 0 /\ calls OStop s = 1.
Proof. vm_compute. auto. Qed.

(** C4 (amended): [browser.close()] is called exactly once in every run in
    which the page was created (whether the run then succeeds, a step fails,
    or the diagnostic screenshot fails) and never otherwise; the playwright
    context is exited exactly once in every run in which it was entered. *)
Theorem C4_release_once (E : env) (fs0 : fsys) :
  let s := trace (final E fs0) in
  calls OClose s = (if succeeded ONewPage s then 1 else 0) /\
  calls OStop s = (if succeeded OStart s then 1 else 0).
Proof.
  decide_run; auto.
Qed.

(** ** C5: the popover wait precedes the grid-cell lookup and hover *)

Lemma tmo_eqb_eq (a b : timeout_ms) : tmo_eqb a b = true -> a = b.
Proof.
  destruct a, b; cbn; try discriminate; auto.
  intros H; apply Z.eqb_eq in H; subst; reflexivity.
Qed.

Lemma op_eqb_eq (a b : op) : op_eqb a b = true -> a = b.
Proof.
  destruct a, b; cbn; try discriminate; auto;
    repeat rewrite andb_true_iff; intros;
    repeat match goal with
    | H : _ /\ _ |- _ => destruct H
    | H : String.eqb _ _ = true |- _ => apply String.eqb_eq in H; subst
    | H : tmo_eqb _ _ = true |- _ => apply tmo_eqb_eq in H; subst
    end; reflexivity.
Qed.

Definition popover_visible : event :=
  ECall (OWait popover_sel "visible" (Some 2000%Z)) None.

(** The grid-cell lookup [page.locator(cell)] or the hover on it. *)
Definition is_cell_access (ev : event) : bool :=
  match ev with
  | ELocator sel => String.eqb sel cell_sel
  | ECall (OHover sel _) _ => String.eqb sel cell_sel
  | _ => false
  end.

Definition is_popover_visible (ev : event) : bool :=
  match ev with
  | ECall o None => op_eqb o (OWait popover_sel "visible" (Some 2000%Z))
  | _ => false
  end.

(** Every cell access comes after a successful popover wait, [seen]
    recording whether one has been passed. *)
Fixpoint guarded (seen : bool) (tr : list event) : bool :=
  match tr with
  | [] => true
  | ev :: tr' =>
      (seen || negb (is_cell_access ev)) &&
      guarded (seen || is_popover_visible ev) tr'
  end.

Lemma is_popover_visible_eq (ev : event) :
  is_popover_visible ev = true -> ev = popover_visible.
Proof.
  destruct ev as [o [r|] | |]; cbn; try discriminate.
  intros H; apply op_eqb_eq in H; subst; reflexivity.
Qed.

Lemma guarded_sound (tr : list event) (seen : bool) :
  guarded seen tr = true ->
  forall i ev, nth_error tr i = Some ev -> is_cell_access ev = true ->
  seen = true \/ exists j, j < i /\ nth_error tr j = Some popover_visible.
Proof.
  revert seen; induction tr as [|ev0 tr IH]; intros seen Hg i ev Hi Hc.
  - destruct i; discriminate.
  - cbn in Hg; apply andb_true_iff in Hg as [Hhd Htl].
    destruct i as [|i]; cbn in Hi.
    + injection Hi as <-. rewrite Hc in Hhd.
      destruct seen; [left; reflexivity | discriminate].
    + destruct (IH _ Htl i ev Hi Hc) as [Hs | (j & Hj & Hn)].
      * destruct seen; [left; reflexivity |].
        right; exists 0; split; [lia |].
        cbn in Hs; apply is_popover_visible_eq in Hs; subst; reflexivity.
      * right; exists (S j); split; [lia | exact Hn].
Qed.

Lemma run_guarded (E : env) (fs0 : fsys) :
  guarded false (trace (final E fs0)) = true.
Proof.
  decide_run; reflexivity.
Qed.

(** C5: in every run, each grid-cell lookup and each hover on the cell
    occurs strictly after a successful popover visibility wait. *)
Theorem C5_popover_before_cell (E : env) (fs0 : fsys) (i : nat) (ev : event) :
  nth_error (trace (final E fs0)) i = Some ev ->
  is_cell_access ev = true ->
  exists j, j < i /\ nth_error (trace (final E fs0)) j = Some popover_visible.
Proof.
  intros Hi Hc.
  destruct (guarded_sound _ _ (run_guarded E fs0) i ev Hi Hc)
    as [H | H]; [discriminate | exact H].
Qed.

Lemma C5_popover_before_cell_witness :
  nth_error (trace (final all_ok no_files)) 15 = Some (ELocator cell_sel) /\
  exists j, j < 15 /\
    nth_error (trace (final all_ok no_files)) j = Some popover_visible.
Proof.
  split; [vm_compute; reflexivity |].
  apply (C5_popover_before_cell all_ok no_files 15 (ELocator cell_sel));
    vm_compute; reflexivity.
Defined.

(** ** C6: the catch-all handler *)

Definition goto_and_shot_fail : env :=
  env_of [(OGoto app_url None, pw_exn "net::ERR_CONNECTION_REFUSED");
          (OScreenshot error_png None, pw_exn "write failed")].

(** C6, counterexample: navigation raises and the diagnostic screenshot
    raises in turn; no diagnostic capture is written and the error leaving
    the run is the screenshot's, not the caught one. *)
Lemma C6_shot_raises :
  let s := trace (final goto_and_shot_fail no_files) in
  raised (OGoto app_url None) s = Some (pw_exn "net::ERR_CONNECTION_REFUSED") /\
  error_artifacts s = 0 /\
  outcome goto_and_shot_fail no_files = Raise (pw_exn "write failed").
Proof. vm_compute. auto. Qed.

Lemma op_eqb_refl (o : op) : op_eqb o o = true.
Proof.
  destruct o as [| | |u [t|]|sel st [t|]|p [t|]|sel [t|]|sel [t|]| |]; cbn;
    rewrite ?String.eqb_refl, ?Z.eqb_refl; reflexivity.
Qed.

Definition is_step (o : op) : bool := existsb (op_eqb o) step_ops.

(** The exception raised by the first failing step, if any. *)
Fixpoint step_failure (tr : list event) : option exn :=
  match tr with
  | [] => None
  | ECall o (Some e) :: tr' => if is_step o then Some e else step_failure tr'
  | _ :: tr' => step_failure tr'
  end.

Fixpoint step_failures (tr : list event) : nat :=
  match tr with
  | [] => 0
  | ECall o (Some _) :: tr' => (if is_step o then 1 else 0) + step_failures tr'
  | _ :: tr' => step_failures tr'
  end.

Lemma is_step_In (o : op) : In o step_ops -> is_step o = true.
Proof.
  intros H; apply existsb_exists; exists o; split; [exact H | apply op_eqb_refl].
Qed.

Lemma raised_step_failures (tr : list event) (o : op) (e : exn) :
  is_step o = true -> raised o tr = Some e -> 1 <= step_failures tr.
Proof.
  intros Hs; induction tr as [|[o' [e'|] | |] tr IH]; cbn -[is_step];
    try discriminate; auto.
  destruct (op_eqb o o') eqn:Ho.
  - apply op_eqb_eq in Ho; subst; rewrite Hs; lia.
  - intros H; specialize (IH H); lia.
Qed.

Lemma step_failure_unique (tr : list event) (o : op) (e : exn) :
  step_failures tr <= 1 -> is_step o = true -> raised o tr = Some e ->
  step_failure tr = Some e.
Proof.
  intros Hle Hs; induction tr as [|[o' [e'|] | |] tr IH]; cbn -[is_step] in *;
    try discriminate; auto.
  destruct (op_eqb o o') eqn:Ho.
  - apply op_eqb_eq in Ho; subst; rewrite Hs; auto.
  - intros H; destruct (is_step o').
    + pose proof (raised_step_failures _ _ _ Hs H); lia.
    + auto.
Qed.

(** At most one step of the [try] body raises in a run. *)
Lemma run_step_failures (E : env) (fs0 : fsys) :
  step_failures (trace (final E fs0)) <= 1.
Proof. decide_run; lia. Qed.

Lemma handler_on_step_failure (E : env) (fs0 : fsys) (e : exn) :
  let s := trace (final E fs0) in
  step_failure s = Some e ->
  let caught := is_Exception (exn_cls e) in
  prints is_error_log s = (if caught then 1 else 0) /\
  (caught = true -> In (EPrint (error_prefix ++ exn_msg e)) s) /\
  shot_attempts error_png s = (if caught then 1 else 0) /\
  calls OClose s = 1 /\
  Forall (fun o' => calls o' s <= 1) step_ops /\
  exit_status (outcome E fs0) = 1 /\
  outcome E fs0 =
    Raise (replaced_by (raised OStop s)
            (replaced_by (raised OClose s)
              (if caught
               then replaced_by (raised (OScreenshot error_png None) s) e
               else e))).
Proof.
  decide_run; repeat split; intros; try discriminate;
    try solve [repeat (solve [left; reflexivity] || right)];
    repeat constructor.
Qed.

(** C6 (amended): in every run in which a step between navigation and the
    second screenshot raises [e], nothing is retried (each step is called at
    most once), [browser.close()] is called once and the status is failure.
    If [e] is an [Exception] it is caught exactly once: the error line
    ["Error during verification: " + str(e)] is printed once and the
    diagnostic screenshot is attempted once; the error leaving the run is
    [e] unless the diagnostic screenshot, [browser.close()] or the context
    exit raised, the last of which to raise wins.  A [BaseException] that is
    not an [Exception] skips the handler: no error line, no diagnostic
    screenshot. *)
Theorem C6_step_failure (E : env) (fs0 : fsys) (o : op) (e : exn) :
  let s := trace (final E fs0) in
  In o step_ops ->
  raised o s = Some e ->
  let caught := is_Exception (exn_cls e) in
  prints is_error_log s = (if caught then 1 else 0) /\
  (caught = true -> In (EPrint (error_prefix ++ exn_msg e)) s) /\
  shot_attempts error_png s = (if caught then 1 else 0) /\
  calls OClose s = 1 /\
  Forall (fun o' => calls o' s <= 1) step_ops /\
  exit_status (outcome E fs0) = 1 /\
  outcome E fs0 =
    Raise (replaced_by (raised OStop s)
            (replaced_by (raised OClose s)
              (if caught
               then replaced_by (raised (OScreenshot error_png None) s) e
               else e))).
Proof.
  intros s Hin Hr.
  apply handler_on_step_failure.
  apply (step_failure_unique _ o); auto using run_step_failures, is_step_In.
Qed.

Definition click_fails : env :=
  env_of [(OClick trigger_sel None, pw_exn "element is not visible")].

Lemma C6_step_failure_witness :
  let s := trace (final click_fails no_files) in
  In (OClick trigger_sel None) step_ops /\
  raised (OClick trigger_sel None) s = Some (pw_exn "element is not visible") /\
  shot_attempts error_png s = 1 /\
  outcome click_fails no_files = Raise (pw_exn "element is not visible").
Proof.
  cbv zeta.
  destruct (C6_step_failure click_fails no_files (OClick trigger_sel None)
              (pw_exn "element is not visible"))
    as (_ & _ & H0 & _ & _ & _ & H1);
    [cbn; tauto | vm_compute; reflexivity |].
  split; [cbn; tauto |].
  split; [vm_compute; reflexivity |].
  split; [exact H0 | rewrite H1; vm_compute; reflexivity].
Defined.

(** ** C7: timeouts *)

(** The timeout policy of the script's calls: the trigger wait passes
    [timeout=10000] ms (10 s), the popover wait [timeout=2000] ms (2 s), and
    navigation, screenshots, click and hover pass no timeout. *)
Definition timeout_policy (o : op) : Prop :=
  match o with
  | OWait sel _ t =>
      (sel = trigger_sel -> t = Some (10 * 1000)%Z) /\
      (sel = popover_sel -> t = Some (2 * 1000)%Z)
  | OGoto _ t | OScreenshot _ t | OClick _ t | OHover _ t => t = None
  | _ => True
  end.

Definition timeout_ok (o : op) : bool :=
  match o with
  | OWait sel _ t =>
      (negb (String.eqb sel trigger_sel) || tmo_eqb t (Some 10000%Z)) &&
      (negb (String.eqb sel popover_sel) || tmo_eqb t (Some 2000%Z))
  | OGoto _ t | OScreenshot _ t | OClick _ t | OHover _ t => tmo_eqb t None
  | _ => true
  end.

Lemma timeout_ok_sound (o : op) : timeout_ok o = true -> timeout_policy o.
Proof.
  destruct o; cbn; try (intros H; apply tmo_eqb_eq in H; exact H); auto.
  rewrite andb_true_iff, !orb_true_iff, !negb_true_iff.
  intros [[H1 | H1] [H2 | H2]]; split; intros ->;
    rewrite ?String.eqb_refl in *; try discriminate;
    apply tmo_eqb_eq; assumption.
Qed.

Definition event_timeout_ok (ev : event) : bool :=
  match ev with ECall o _ => timeout_ok o | _ => true end.

Lemma run_timeouts_ok (E : env) (fs0 : fsys) :
  forallb event_timeout_ok (trace (final E fs0)) = true.
Proof. decide_run; reflexivity. Qed.

(** C7: in every run, every call issued carries the script's timeout
    policy: the trigger visibility wait is bounded by 10 s (10000 ms), the
    popover visibility wait by 2 s (2000 ms), and navigation, click, hover
    and screenshot calls pass no timeout. *)
Theorem C7_timeouts (E : env) (fs0 : fsys) :
  Forall (fun ev => match ev with ECall o _ => timeout_policy o | _ => True end)
         (trace (final E fs0)).
Proof.
  apply Forall_forall; intros ev Hin.
  pose proof (proj1 (forallb_forall _ _) (run_timeouts_ok E fs0) ev Hin) as H.
  destruct ev as [o r| |]; cbn in *; auto using timeout_ok_sound.
Qed.

(** ** C8: re-running the script *)

Definition stale_error : fsys := fs_write no_files error_png [Byte.x00].

(** C8, counterexample: two consecutive successful runs against the same
    application, once from a directory holding an error capture left by an
    earlier failed run and once from an empty one.  The most recent run is
    the same, yet the final [verification_error.png] differs: a successful
    run never writes it, so the stale capture survives. *)
Lemma C8_stale_error_capture :
  files (final all_ok (files (final all_ok stale_error))) error_png <>
  files (final all_ok (files (final all_ok no_files))) error_png.
Proof. vm_compute. discriminate. Qed.

(** C8 (amended): every file a run writes is overwritten unconditionally
    with contents determined by the run alone (those it writes starting
    from an empty directory), while every file the run does not write keeps
    its prior contents; hence re-running against the same application state
    is idempotent. *)
Theorem C8_overwrite (E : env) (fs0 : fsys) (p : string) :
  files (final E fs0) p =
    match files (final E no_files) p with
    | Some d => Some d
    | None => fs0 p
    end /\
  files (final E (files (final E fs0))) p = files (final E fs0) p.
Proof.
  unfold final.
  repeat lazymatch goal with |- context [run ?E ?fs] =>
    let R := fresh "R" in let HR := fresh "HR" in remember (run E fs) as R eqn:HR
  end.
  repeat match goal with H : _ = run _ _ |- _ => revert H end.
  unfold run, verify_grid_controls, with_playwright, try_except_finally,
    steps, on_error, bind, call, print, locator, raise, ret.
  red_run; split_calls; intros; subst; red_run; unfold fs_write, no_files.
  all: repeat match goal with
              | |- context [String.eqb ?q ?x] => is_var q; destruct (String.eqb q x)
              end; split; reflexivity.
Qed.

(** ** C9: failures before the [try] *)

Definition launch_and_exit_fail : env :=
  env_of [(OLaunch, pw_exn "Executable doesn't exist");
          (OStop, pw_exn "Connection closed")].

(** C9, counterexample: the launch raises and the playwright context exit
    raises in turn; the exception leaving the run is the exit's, not the
    launch's. *)
Lemma C9_exit_raises :
  let s := trace (final launch_and_exit_fail no_files) in
  raised OLaunch s = Some (pw_exn "Executable doesn't exist") /\
  outcome launch_and_exit_fail no_files = Raise (pw_exn "Connection closed").
Proof. vm_compute. auto. Qed.

(** C9 (amended): in every run in which the browser launch or the page
    creation raises [e], no diagnostic screenshot is attempted, no error
    line is printed, navigation is never reached, and the run ends with
    [e], or with the playwright context exit's exception if that exit
    raises. *)
Theorem C9_setup_failure (E : env) (fs0 : fsys) (e : exn) :
  let s := trace (final E fs0) in
  raised OLaunch s = Some e \/ raised ONewPage s = Some e ->
  shot_attempts error_png s = 0 /\ prints is_error_log s = 0 /\
  calls (OGoto app_url None) s = 0 /\
  outcome E fs0 = Raise (replaced_by (raised OStop s) e).
Proof. decide_run; auto. Qed.

Definition launch_fails : env :=
  env_of [(OLaunch, pw_exn "Executable doesn't exist")].

Lemma C9_setup_failure_witness :
  let s := trace (final launch_fails no_files) in
  raised OLaunch s = Some (pw_exn "Executable doesn't exist") /\
  shot_attempts error_png s = 0 /\
  outcome launch_fails no_files = Raise (pw_exn "Executable doesn't exist").
Proof.
  cbv zeta.
  destruct (C9_setup_failure launch_fails no_files
              (pw_exn "Executable doesn't exist")) as (H0 & _ & _ & H1);
    [left; vm_compute; reflexivity |].
  split; [vm_compute; reflexivity |].
  split; [exact H0 | rewrite H1; vm_compute; reflexivity].
Defined.

(** ** C10: the diagnostic screenshot raising *)

Definition handler_and_close_fail : env :=
  env_of [(OGoto app_url None, pw_exn "net::ERR_CONNECTION_REFUSED");
          (OScreenshot error_png None, pw_exn "write failed");
          (OClose, pw_exn "Target closed")].

(** C10, counterexample: navigation raises, the diagnostic screenshot
    raises, and [browser.close()] raises too; the exception leaving the run
    is the close's, not the screenshot's. *)
Lemma C10_close_raises :
  let s := trace (final handler_and_close_fail no_files) in
  raised (OScreenshot error_png None) s = Some (pw_exn "write failed") /\
  outcome handler_and_close_fail no_files = Raise (pw_exn "Target closed").
Proof. vm_compute. auto. Qed.

(** C10 (amended): in every run in which the diagnostic screenshot of the
    failure handler raises [f], [browser.close()] is still called exactly
    once, the status is failure, and the exception leaving the run is [f]
    (the originally caught error is dropped) unless [browser.close()] or the
    playwright context exit raises, the last of which to raise wins. *)
Theorem C10_handler_shot_raises (E : env) (fs0 : fsys) (f : exn) :
  let s := trace (final E fs0) in
  raised (OScreenshot error_png None) s = Some f ->
  calls OClose s = 1 /\ exit_status (outcome E fs0) = 1 /\
  outcome E fs0 =
    Raise (replaced_by (raised OStop s) (replaced_by (raised OClose s) f)).
Proof. decide_run; auto. Qed.

Lemma C10_handler_shot_raises_witness :
  let s := trace (final goto_and_shot_fail no_files) in
  raised (OScreenshot error_png None) s = Some (pw_exn "write failed") /\
  outcome goto_and_shot_fail no_files = Raise (pw_exn "write failed").
Proof.
  cbv zeta.
  destruct (C10_handler_shot_raises goto_and_shot_fail no_files
              (pw_exn "write failed")) as (_ & _ & H1);
    [vm_compute; reflexivity |].
  split; [vm_compute; reflexivity | rewrite H1; vm_compute; reflexivity].
Defined.

(** * Further properties of the script *)

(** Whether some library call raised. *)
Definition raised_any (tr : list event) : bool :=
  existsb (fun ev => match ev with ECall _ (Some _) => true | _ => false end) tr.

(** The library calls of a trace, in order. *)
Fixpoint call_ops (tr : list event) : list op :=
  match tr with
  | [] => []
  | ECall o _ :: tr' => o :: call_ops tr'
  | _ :: tr' => call_ops tr'
  end.

Fixpoint nodupb (l : list op) : bool :=
  match l with
  | [] => true
  | o :: l' => negb (existsb (op_eqb o) l') && nodupb l'
  end.

Lemma nodupb_NoDup (l : list op) : nodupb l = true -> NoDup l.
Proof.
  induction l as [|o l IH]; cbn; intros H; [constructor |].
  apply andb_true_iff in H as [Hn Hl]; constructor; auto.
  intros Hin; apply negb_true_iff in Hn.
  assert (existsb (op_eqb o) l = true) as Ht
    by (apply existsb_exists; exists o; split; [exact Hin | apply op_eqb_refl]).
  congruence.
Qed.

(** The step calls of a trace with their outcomes, in order. *)
Fixpoint step_calls (tr : list event) : list (op * option exn) :=
  match tr with
  | [] => []
  | ECall o r :: tr' =>
      if is_step o then (o, r) :: step_calls tr' else step_calls tr'
  | _ :: tr' => step_calls tr'
  end.


(** Two runs of the same application from any two working directories. *)
Ltac split_two_runs :=
  unfold outcome, final;
  repeat lazymatch goal with |- context [run ?E ?fs] =>
    let R := fresh "R" in let HR := fresh "HR" in remember (run E fs) as R eqn:HR
  end;
  repeat match goal with H : _ = run _ _ |- _ => revert H end;
  unfold run, verify_grid_controls, with_playwright, try_except_finally,
    steps, on_error, bind, call, print, locator, raise, ret;
  red_run; split_calls; intros; subst; red_run.

(** The run ends with success status exactly when no library call raised:
    every failure, caught or not, reaches the process boundary. *)
Theorem run_status_iff_no_raise (E : env) (fs0 : fsys) :
  exit_status (outcome E fs0) =
    (if raised_any (trace (final E fs0)) then 1 else 0).
Proof. decide_run; reflexivity. Qed.

(** No library call is issued twice in a run: nothing is retried, and the
    teardown calls run once. *)
Theorem run_calls_NoDup (E : env) (fs0 : fsys) :
  NoDup (call_ops (trace (final E fs0))).
Proof.
  apply nodupb_NoDup.
  decide_run; reflexivity.
Qed.

(** A run never touches a file other than the three fixed artifact paths. *)
Theorem run_other_files_untouched (E : env) (fs0 : fsys) (p : string) :
  p <> initial_png -> p <> open_png -> p <> error_png ->
  files (final E fs0) p = fs0 p.
Proof.
  intros H1 H2 H3; split_two_runs; unfold fs_write.
  all: repeat match goal with
              | |- context [String.eqb ?q ?x] =>
                  is_var q; let Hq := fresh "Hq" in
                  destruct (String.eqb q x) eqn:Hq;
                  [apply String.eqb_eq in Hq; congruence |]
              end; reflexivity.
Qed.

Lemma run_other_files_untouched_witness :
  "notes.txt" <> initial_png /\ "notes.txt" <> open_png /\
  "notes.txt" <> error_png /\
  files (final all_ok stale_error) "notes.txt" = stale_error "notes.txt".
Proof.
  split; [discriminate |]. split; [discriminate |]. split; [discriminate |].
  apply run_other_files_untouched; discriminate.
Defined.



(** The steps are issued in the script's order and the run stops issuing
    steps at the first one that raises: the step calls form a prefix of the
    step list, and all of them but the last returned. *)
Theorem run_steps_prefix (E : env) (fs0 : fsys) :
  let sc := step_calls (trace (final E fs0)) in
  map fst sc = firstn (length sc) step_ops /\
  removelast (map snd sc) = repeat None (length sc - 1).
Proof. decide_run; split; reflexivity. Qed.

(** Once the page exists, a run always ends with [browser.close()] followed
    by the playwright context exit: nothing is printed, captured or called
    after the teardown. *)
Theorem run_teardown_last (E : env) (fs0 : fsys) :
  let s := trace (final E fs0) in
  succeeded ONewPage s = true ->
  skipn (length s - 2) s =
    [ECall OClose (raised OClose s); ECall OStop (raised OStop s)].
Proof. decide_run; reflexivity. Qed.

Lemma run_teardown_last_witness :
  let s := trace (final click_fails no_files) in
  succeeded ONewPage s = true /\
  skipn (length s - 2) s = [ECall OClose None; ECall OStop None].
Proof.
  cbv zeta.
  split; [vm_compute; reflexivity |].
  rewrite (run_teardown_last click_fails no_files); vm_compute; reflexivity.
Defined.

(** The completion message is printed exactly when all seven steps
    returned, whatever the teardown then does. *)
Theorem run_completion_iff_steps (E : env) (fs0 : fsys) :
  let s := trace (final E fs0) in
  prints is_completion s =
    (if forallb (fun o => succeeded o s) step_ops then 1 else 0).
Proof. decide_run; reflexivity. Qed.

